(** * Server-side session manager (lib/session.py): a shallow embedding

    The module keeps session data in a MongoDB collection and hands the
    client an opaque token.  [Session] is a [dict] subclass with a few
    attributes ([id], [modified], [expired], ...); its methods talk to the
    collection through pymongo and to the clock through [datetime.now()].

    The embedding threads two pieces of state through every method: the
    object itself ([Session], attributes and dict contents) and the
    [World] around it (collection, clock, entropy source).  Exceptions are
    an explicit outcome; an exception leaves the state as it was when it
    was raised, as in Python. *)

From stdpp Require Import gmap strings list fin_maps.
From Stdlib Require Import ZArith Lia.

#[local] Set Warnings "-register-all".
#[local] Open Scope string_scope.
#[local] Open Scope Z_scope.

(** ** Values *)

(** Python / BSON values as far as the module handles them.  A [datetime]
    is a count of microseconds; an [ObjectId] is the number the driver
    made up for it. *)
Inductive value : Type :=
  | VNone
  | VBool (b : bool)
  | VInt (z : Z)
  | VStr (s : string)
  | VTime (t : Z)
  | VObjectId (n : nat)
  | VDict (d : gmap string value).

Abbreviation dict := (gmap string value).

(** A stored document is a dict of fields. *)
Abbreviation document := (gmap string value).

(** Python truthiness ([if x:], [not x]). *)
Definition truthy (v : value) : bool :=
  match v with
  | VNone => false
  | VBool b => b
  | VInt z => negb (z =? 0)
  | VStr s => negb (String.eqb s "")
  | VTime _ => true
  | VObjectId _ => true
  | VDict d => negb (Nat.eqb (size d) 0)
  end.

(** [self.id] as it is written into a document or a query. *)
Definition id_value (i : option string) : value :=
  match i with
  | Some t => VStr t
  | None => VNone
  end.

(** ** datetime *)

(** [datetime.timedelta], normalised as Python does: [0 <= seconds < 86400]
    and [0 <= microseconds < 10^6], the sign carried by [days]. *)
Record timedelta : Type := mk_timedelta
  { days : Z; seconds : Z; microseconds : Z }.

Definition us_per_second : Z := 1000000.
Definition us_per_day : Z := 24 * 60 * 60 * us_per_second.

(** [a - b] for two datetimes. *)
Definition datetime_sub (a b : Z) : timedelta :=
  let d := a - b in
  {| days := d `div` us_per_day;
     seconds := (d `mod` us_per_day) `div` us_per_second;
     microseconds := d `mod` us_per_second |}.

(** ** The collection (pymongo, the 2.x API behind [pymongo.Connection])

    A collection is the list of its documents in natural (insertion)
    order.  A query is the predicate it denotes. *)

Definition query : Type := document → bool.

(** [{'session_id': i}]: the field equals [i]; a [None] also matches a
    document without the field. *)
Definition session_id_is (i : option string) : query := λ d,
  match i, d !! "session_id" with
  | Some t, Some (VStr s) => String.eqb s t
  | None, (None | Some VNone) => true
  | _, _ => false
  end.

(** [{'data.<field>': z}], the shape of query the docstring of
    [expire_set] gives. *)
Definition data_field_is (field : string) (z : Z) : query := λ d,
  match d !! "data" with
  | Some (VDict m) =>
      match m !! field with
      | Some (VInt z') => z' =? z
      | _ => false
      end
  | _ => false
  end.

(** [find_one(spec)]: the first matching document. *)
Fixpoint coll_find_one (q : query) (c : list document) : option document :=
  match c with
  | [] => None
  | d :: c' => if q d then Some d else coll_find_one q c'
  end.

(** [update(spec, {'$set': {k: v}})]: [multi] is left at its default, so
    the first matching document is changed and no other; nothing is
    inserted when none matches ([upsert] is left at its default too). *)
Fixpoint coll_update (q : query) (k : string) (v : value)
    (c : list document) : list document :=
  match c with
  | [] => []
  | d :: c' => if q d then <[k := v]> d :: c' else d :: coll_update q k v c'
  end.

(** [save(doc)] for a document without [_id]: the driver adds a new
    [_id] and inserts. *)
Definition coll_save (doc : document) (c : list document) : list document :=
  c ++ [<["_id" := VObjectId (length c)]> doc].

Inductive store_call : Type := CallFindOne | CallUpdate | CallSave.

(** ** World and object *)

(** What surrounds a session object: the collection ([mongodb[db].session])
    with a record of the calls made on it, the clock [datetime.now()]
    reads, and the entropy behind [create_token]. *)
Record World : Type := mk_World
  { store : list document;
    calls : list store_call;
    clock : Z;
    entropy : nat → string;
    drawn : nat }.

(** The attributes of a [Session] and, in [items], the contents of the
    dict it is.  [session_id] is the attribute [rotate] assigns;
    [self.request] is stored and never read, and is left out. *)
Record Session : Type := mk_Session
  { id : option string;
    modified : bool;
    new : option bool;
    expired : bool;
    last_update : option value;
    session_id : option string;
    items : dict }.

Inductive exn : Type :=
  | KeyError (k : string)
  | TypeError
  | AttributeError.

Inductive outcome (A : Type) : Type :=
  | Returned (a : A)
  | Raised (e : exn).
Arguments Returned {A} a.
Arguments Raised {A} e.

(** A method body: it runs on the object and the world and leaves both,
    with a value or an exception. *)
Definition M (A : Type) : Type := Session → World → outcome A * Session * World.

#[global] Instance M_ret : MRet M := λ A a s w, (Returned a, s, w).
#[global] Instance M_bind : MBind M := λ A B f m s w,
  match m s w with
  | (Returned a, s', w') => f a s' w'
  | (Raised e, s', w') => (Raised e, s', w')
  end.

Definition raise {A : Type} (e : exn) : M A := λ s w, (Raised e, s, w).
Definition get_self : M Session := λ s w, (Returned s, s, w).
Definition put_self (s' : Session) : M unit := λ _ w, (Returned (), s', w).

Definition set_id (i : option string) : M unit := λ s w,
  (Returned (), mk_Session i (modified s) (new s) (expired s) (last_update s)
                           (session_id s) (items s), w).
Definition set_modified (b : bool) : M unit := λ s w,
  (Returned (), mk_Session (id s) b (new s) (expired s) (last_update s)
                           (session_id s) (items s), w).
Definition set_expired (b : bool) : M unit := λ s w,
  (Returned (), mk_Session (id s) (modified s) (new s) b (last_update s)
                           (session_id s) (items s), w).
Definition set_last_update (v : value) : M unit := λ s w,
  (Returned (), mk_Session (id s) (modified s) (new s) (expired s) (Some v)
                           (session_id s) (items s), w).
Definition set_session_id (t : string) : M unit := λ s w,
  (Returned (), mk_Session (id s) (modified s) (new s) (expired s)
                           (last_update s) (Some t) (items s), w).
Definition set_items (m : dict) : M unit := λ s w,
  (Returned (), mk_Session (id s) (modified s) (new s) (expired s)
                           (last_update s) (session_id s) m, w).

(** [datetime.now()]. *)
Definition datetime_now : M Z := λ s w, (Returned (clock w), s, w).

(** Modelled from the spec: [create_token] of lib/token.py, which is not
    among the sources.  It "generates a fresh token" from a secure random
    generator; here it hands out the next token of the world's entropy
    source. *)
Definition create_token : M string := λ s w,
  (Returned (entropy w (drawn w)), s,
   mk_World (store w) (calls w) (clock w) (entropy w) (S (drawn w))).

Definition store_find_one (q : query) : M (option document) := λ s w,
  (Returned (coll_find_one q (store w)), s,
   mk_World (store w) (calls w ++ [CallFindOne]) (clock w) (entropy w) (drawn w)).
Definition store_update (q : query) (k : string) (v : value) : M unit := λ s w,
  (Returned (), s,
   mk_World (coll_update q k v (store w)) (calls w ++ [CallUpdate]) (clock w)
            (entropy w) (drawn w)).
Definition store_save (doc : document) : M unit := λ s w,
  (Returned (), s,
   mk_World (coll_save doc (store w)) (calls w ++ [CallSave]) (clock w)
            (entropy w) (drawn w)).

(** ** dict, the base class *)

(** [d[k]] on a plain dict. *)
Definition dict_getitem (d : dict) (k : string) : M value :=
  match d !! k with
  | Some v => mret v
  | None => raise (KeyError k)
  end.

(** The methods [Session] inherits unchanged.  In CPython they work on the
    dict's storage directly: none of them goes through an overridden
    [__setitem__] or [__delitem__]. *)
Definition getitem (k : string) : M value :=
  self ← get_self; dict_getitem (items self) k.

Definition get (k : string) (dflt : value) : M value :=
  self ← get_self; mret (default dflt (items self !! k)).

Definition contains (k : string) : M bool :=
  self ← get_self; mret (bool_decide (is_Some (items self !! k))).

(** [update(other)]: the entries of [other] win. *)
Definition update (other : dict) : M unit :=
  self ← get_self; set_items (other ∪ items self).

(** [pop(k)] and [pop(k, dflt)]. *)
Definition pop (k : string) (dflt : option value) : M value :=
  self ← get_self;
  match items self !! k, dflt with
  | Some v, _ => set_items (delete k (items self));; mret v
  | None, Some v => mret v
  | None, None => raise (KeyError k)
  end.

(** [popitem()]: some entry, here the first the map lists. *)
Definition popitem : M (string * value) :=
  self ← get_self;
  match map_to_list (items self) with
  | [] => raise (KeyError "popitem(): dictionary is empty")
  | (k, v) :: _ => set_items (delete k (items self));; mret (k, v)
  end.

Definition setdefault (k : string) (dflt : value) : M value :=
  self ← get_self;
  match items self !! k with
  | Some v => mret v
  | None => set_items (<[k := dflt]> (items self));; mret dflt
  end.

Definition clear : M unit := set_items ∅.

(** ** Session *)

(** [__setitem__] and [__delitem__], the two methods [Session] overrides:
    the flag is set first, then the dict operation runs (and, for a
    missing key, raises). *)
Definition setitem (k : string) (v : value) : M unit :=
  set_modified true;;
  self ← get_self;
  set_items (<[k := v]> (items self)).

Definition delitem (k : string) : M unit :=
  set_modified true;;
  self ← get_self;
  match items self !! k with
  | Some _ => set_items (delete k (items self))
  | None => raise (KeyError k)
  end.

Definition reset : M unit :=
  tok ← create_token;
  set_id (Some tok);;
  set_modified true;;
  now ← datetime_now;
  set_last_update (VTime now);;
  clear.

Definition expire : M unit :=
  self ← get_self;
  store_update (session_id_is (id self)) "expired" (VBool true);;
  set_expired true.

Definition expire_set (match_ : query) : M unit :=
  store_update match_ "expired" (VBool true);;
  set_expired true.

Definition rotate : M unit :=
  expire;;
  tok ← create_token;
  set_session_id tok;;
  set_modified true;;
  set_expired false.

Definition save : M unit :=
  self ← get_self;
  if expired self then mret ()
  else
    now ← datetime_now;
    set_last_update (VTime now);;
    self ← get_self;
    store_save (<["last_update" := VTime now]>
                 (<["session_id" := id_value (id self)]>
                   (<["data" := VDict (items self)]> ∅))).

(** The module-level [config] dict, as [init] fills it. *)
Record Config : Type := mk_Config
  { name : string;
    path : string;
    domain : option string;
    timeout : Z;
    secure_only : bool }.

Record Request : Type := mk_Request
  { str_cookies : gmap string string }.

(** [datetime.now() - last_update]: defined between datetimes only. *)
Definition datetime_minus (now : Z) (last : option value) : M timedelta :=
  match last with
  | Some (VTime t) => mret (datetime_sub now t)
  | _ => raise TypeError
  end.

(** [doc['data'].keys()]. *)
Definition keys (v : value) : M (list string) :=
  match v with
  | VDict d => mret (map_to_list d).*1
  | _ => raise AttributeError
  end.

(** [for k in ks: self[k] = doc[k]]. *)
Fixpoint load_keys (doc : document) (ks : list string) : M unit :=
  match ks with
  | [] => mret ()
  | k :: ks' => v ← dict_getitem doc k; setitem k v;; load_keys doc ks'
  end.

(** The object before [__init__] has assigned anything: the class
    attributes, with the two flags at the [False] that the first lines of
    [__init__] give them. *)
Definition blank : Session :=
  {| id := None; modified := false; new := None; expired := false;
     last_update := None; session_id := None; items := ∅ |}.

Section Construction.

(** [valid_token] of lib/token.py is not among the sources: the
    constructor is stated for any such check. *)
Variable valid_token : string → bool.
Variable config : Config.

(** The part of [__init__] that follows a successful [find_one]. *)
Definition init_from_doc (doc : document) : M unit :=
  lu ← dict_getitem doc "last_update";
  set_last_update lu;;
  ex ← dict_getitem doc "expired";
  if truthy ex then reset
  else
    now ← datetime_now;
    self ← get_self;
    age ← datetime_minus now (last_update self);
    let age_seconds := days age * (24 * 60 * 60) + seconds age in
    if timeout config <? age_seconds then expire;; reset
    else
      data ← dict_getitem doc "data";
      ks ← keys data;
      load_keys doc ks;;
      set_modified false.

(** [__init__]: the cookie, the token check, the lookup, and what the
    document found says. *)
Definition init (request : Request) : M unit :=
  set_modified false;;
  set_expired false;;
  set_id (str_cookies request !! name config);;
  self ← get_self;
  match id self with
  | None => reset
  | Some tok =>
      if String.eqb tok "" then reset
      else if negb (valid_token tok) then reset
      else
        doc ← store_find_one (session_id_is (id self));
        match doc with
        | None => reset
        | Some d => if Nat.eqb (size d) 0 then reset else init_from_doc d
        end
  end.

(** [Session(request)]: the constructed object, or the exception that
    left [__init__]. *)
Definition Session_new (request : Request) (w : World)
    : outcome Session * World :=
  match init request blank w with
  | (Returned _, s, w') => (Returned s, w')
  | (Raised e, _, w') => (Raised e, w')
  end.

End Construction.

(** The outgoing [Set-Cookie]. *)
Record Cookie : Type := mk_Cookie
  { cookie_name : string;
    cookie_value : option string;
    cookie_path : string;
    cookie_domain : option string;
    cookie_secure : bool;
    cookie_httponly : bool }.

(** [on_response]: save, then issue the cookie for [session.id]. *)
Definition on_response (config : Config) : M Cookie :=
  save;;
  self ← get_self;
  mret {| cookie_name := name config; cookie_value := id self;
          cookie_path := path config; cookie_domain := domain config;
          cookie_secure := secure_only config; cookie_httponly := true |}.

(** ** Reading a run *)

Definition result {A : Type} (r : outcome A * Session * World) : outcome A := r.1.1.
Definition self_after {A : Type} (r : outcome A * Session * World) : Session := r.1.2.
Definition world_after {A : Type} (r : outcome A * Session * World) : World := r.2.

(** Unfolds the plumbing of [M], leaving dict and collection operations
    as they are. *)
Ltac run :=
  cbv [mbind mret M_bind M_ret raise get_self put_self set_id set_modified
       set_expired set_last_update set_session_id set_items datetime_now
       create_token store_find_one store_update store_save
       result self_after world_after];
  cbn [fst snd id modified new expired last_update session_id items
       store calls clock entropy drawn].

(** ** A token check and a few worlds to run the code in *)

(** Modelled from the spec: [valid_token] of lib/token.py, which is not
    among the sources.  The spec has it check "length and character-set
    against the exact output shape" of the generator, a 256-bit token in
    "the conventional base64url alphabet, no padding": 43 characters out
    of [A-Za-z0-9_-]. *)
Definition b64url_char (a : Ascii.ascii) : bool :=
  let n := Ascii.nat_of_ascii a in
  ((65 <=? n) && (n <=? 90) || (97 <=? n) && (n <=? 122)
   || (48 <=? n) && (n <=? 57) || (n =? 45) || (n =? 95))%nat.

Definition valid_token_b64 (t : string) : bool :=
  (String.length t =? 43)%nat && forallb b64url_char (String.list_ascii_of_string t).

Definition tokA : string := "AAAAAAAAAAAAAAAAAAAAAAAAAAAAAAAAAAAAAAAAAAA".
Definition tokB : string := "BBBBBBBBBBBBBBBBBBBBBBBBBBBBBBBBBBBBBBBBBBB".
Definition tokC : string := "CCCCCCCCCCCCCCCCCCCCCCCCCCCCCCCCCCCCCCCCCCC".
Definition tokD : string := "DDDDDDDDDDDDDDDDDDDDDDDDDDDDDDDDDDDDDDDDDDD".

(** An entropy source: [tokA], [tokB], [tokC], then [tokD] for ever. *)
Definition entropy0 (n : nat) : string :=
  match n with
  | 0%nat => tokA
  | 1%nat => tokB
  | 2%nat => tokC
  | _ => tokD
  end.

(** The settings of pyrapp/app.py: cookie "session", ten minutes of idle
    time. *)
Definition config0 : Config :=
  {| name := "session"; path := "/"; domain := Some "localhost";
     timeout := 10 * 60; secure_only := false |}.

Definition no_cookie : Request := {| str_cookies := ∅ |}.
Definition with_cookie (t : string) : Request :=
  {| str_cookies := {[ "session" := t ]} |}.

(** Some instant, in microseconds. *)
Definition t0 : Z := 1300000000 * us_per_second.

(** An empty collection, nothing drawn yet. *)
Definition world0 : World :=
  {| store := []; calls := []; clock := t0; entropy := entropy0; drawn := 0 |}.

(** A document as the spec lays it out, [expired] included. *)
Definition stored (t : string) (last : Z) (ex : bool) (data : dict) : document :=
  <["_id" := VObjectId 0]>
    (<["session_id" := VStr t]>
      (<["last_update" := VTime last]>
        (<["expired" := VBool ex]>
          (<["data" := VDict data]> ∅)))).

Definition alice : dict := {[ "user" := VStr "alice" ]}.

(** A world whose collection holds one document, for [t], last updated
    [idle] seconds before now. *)
Definition world_with (t : string) (idle : Z) (ex : bool) (data : dict) : World :=
  {| store := [stored t (t0 - idle * us_per_second) ex data];
     calls := []; clock := t0; entropy := entropy0; drawn := 0 |}.

(** A loaded, untouched session for [t]. *)
Definition active (t : string) (data : dict) : Session :=
  {| id := Some t; modified := false; new := None; expired := false;
     last_update := Some (VTime t0); session_id := None; items := data |}.

(** The entity's own session matches [P]: some stored document carries the
    entity's id and satisfies [P]. *)
Definition own_session_matches (P : query) (s : Session) (w : World) : bool :=
  existsb (λ d, session_id_is (id s) d && P d) (store w).

(** The session a construction returned. *)
Definition the_session (r : outcome Session * World) : Session :=
  match r.1 with
  | Returned s => s
  | Raised _ => blank
  end.

(** A first visit: no cookie, empty collection. *)
Definition first_visit : outcome Session * World :=
  Session_new valid_token_b64 config0 no_cookie world0.

(** The handler of the first visit stores one key, and the request ends. *)
Definition first_visit_saved : outcome unit * Session * World :=
  (setitem "user" (VStr "alice");; save) (the_session first_visit) first_visit.2.

(** The handler of the first visit rotates the session (a login), and the
    request ends. *)
Definition first_visit_rotated : outcome unit * Session * World :=
  (rotate;; save) (the_session first_visit) first_visit.2.

(** The same with an explicit [expire()] before the rotation. *)
Definition first_visit_expired_rotated : outcome unit * Session * World :=
  (expire;; rotate;; save) (the_session first_visit) first_visit.2.

(** A visit presenting [tokB], whose document was last updated 601 seconds
    ago, one second past the timeout of [config0]. *)
Definition idle_visit : outcome Session * World :=
  Session_new valid_token_b64 config0 (with_cookie tokB)
              (world_with tokB 601 false ∅).

(** ** Worlds over time *)

(** A stored document counts as expired when [doc['expired']] is there and
    truthy. *)
Definition doc_expired (d : document) : bool :=
  match d !! "expired" with
  | Some v => truthy v
  | None => false
  end.

(** [d'] is [d], possibly with the expired mark set. *)
Definition marked (d d' : document) : Prop :=
  d' = d ∨ d' = <["expired" := VBool true]> d.

(** [c'] holds the documents of [c] in place, possibly marked, and
    possibly more after them. *)
Definition store_grows (c c' : list document) : Prop :=
  ∃ c1 tail : list document, c' = (c1 ++ tail)%list ∧ Forall2 marked c c1.

(** One step of the world: some session object is constructed or runs one
    of its methods, or time passes. *)
Inductive core_step : World → World → Prop :=
  | step_new valid_token config request w :
      core_step w (Session_new valid_token config request w).2
  | step_reset s w : core_step w (reset s w).2
  | step_expire s w : core_step w (expire s w).2
  | step_expire_set P s w : core_step w (expire_set P s w).2
  | step_rotate s w : core_step w (rotate s w).2
  | step_save s w : core_step w (save s w).2
  | step_clock t w :
      core_step w {| store := store w; calls := calls w; clock := t;
                     entropy := entropy w; drawn := drawn w |}.

(** The session of [tokC] is loaded and expired; then it is rotated and
    saved. *)
Definition revoked_world : World :=
  world_after (expire (active tokC ∅) (world_with tokC 5 false ∅)).

Definition later_world : World :=
  (save (self_after (rotate (active tokC ∅) revoked_world))
        (rotate (active tokC ∅) revoked_world).2).2.

(** A collection whose one document has an id and nothing else. *)
Definition bare_world (t : string) : World :=
  {| store := [{[ "session_id" := VStr t ]}]; calls := []; clock := t0;
     entropy := entropy0; drawn := 0 |}.

(** Two sessions of one user, and a third of another. *)
Definition user_doc (t : string) (uid : Z) : document :=
  stored t t0 false {[ "user_id" := VInt uid ]}.

Definition users_world : World :=
  {| store := [user_doc tokA 7; user_doc tokB 55; user_doc tokC 55];
     calls := []; clock := t0; entropy := entropy0; drawn := 0 |}.

(** The world a construction leaves when all it did was one [find_one]. *)
Definition looked_up (w : World) : World :=
  {| store := store w; calls := calls w ++ [CallFindOne]; clock := clock w;
     entropy := entropy w; drawn := drawn w |}.

(** The object as [__init__] has it when [find_one] returns. *)
Definition presenting (T : string) : Session :=
  {| id := Some T; modified := false; new := None; expired := false;
     last_update := None; session_id := None; items := ∅ |}.

(** * Properties *)

(** ** The dirty flag *)

(** C7: for every key [k] and value [v], [session[k] = v] and
    [del session[k]] leave [modified = true], whatever the flag and the
    dict held before (a [del] of a missing key raises, with the flag already
    set); reading a key, by [session[k]], [get] or [in], leaves the flag and
    the whole object as they were. *)
Theorem mutation_marks_modified (k : string) (v dflt : value) (s : Session) (w : World) :
  modified (self_after (setitem k v s w)) = true
  ∧ modified (self_after (delitem k s w)) = true
  ∧ self_after (getitem k s w) = s
  ∧ self_after (get k dflt s w) = s
  ∧ self_after (contains k s w) = s
  ∧ modified (self_after (getitem k s w)) = modified s.
Proof.
  unfold setitem, delitem, getitem, get, contains, dict_getitem.
  repeat split; run; try reflexivity;
    destruct (items s !! k); reflexivity.
Qed.

(** ** Saving *)

(** C6: [save()] on an object whose [expired] flag is set returns at once:
    the world is the one it started in, so no call reached the collection,
    every stored document (its [expired] field, its [data]) is as it was,
    and the object is unchanged too. *)
Theorem save_expired_is_noop (s : Session) (w : World) :
  expired s = true →
  save s w = (Returned (), s, w).
Proof.
  intros He. unfold save. run. rewrite He. reflexivity.
Qed.

Lemma save_expired_is_noop_witness :
  save (self_after (expire (active tokA alice) (world_with tokA 5 false alice)))
       (world_after (expire (active tokA alice) (world_with tokA 5 false alice)))
  = (Returned (),
     self_after (expire (active tokA alice) (world_with tokA 5 false alice)),
     world_after (expire (active tokA alice) (world_with tokA 5 false alice))).
Proof.
  apply save_expired_is_noop. reflexivity.
Defined.

(** ** Construction *)

(** What [reset] does to any object in any world: one token is drawn and
    becomes the id, the dict is emptied, [modified] is set and
    [last_update] is now.  The [expired] flag, [new] and [session_id] are
    not assigned, and the collection is not called. *)
Lemma reset_eq (s : Session) (w : World) :
  reset s w =
  (Returned (),
   {| id := Some (entropy w (drawn w)); modified := true; new := new s;
      expired := expired s; last_update := Some (VTime (clock w));
      session_id := session_id s; items := ∅ |},
   {| store := store w; calls := calls w; clock := clock w;
      entropy := entropy w; drawn := S (drawn w) |}).
Proof. reflexivity. Qed.

(** Construction without a usable cookie value: absent, empty, or refused
    by the token check.  No such value gets as far as [find_one]. *)
Lemma Session_new_unusable (valid_token : string → bool) (config : Config)
    (request : Request) (w : World) :
  match str_cookies request !! name config with
  | None => True
  | Some tok => tok = "" ∨ valid_token tok = false
  end →
  Session_new valid_token config request w =
  (Returned {| id := Some (entropy w (drawn w)); modified := true; new := None;
               expired := false; last_update := Some (VTime (clock w));
               session_id := None; items := ∅ |},
   {| store := store w; calls := calls w; clock := clock w;
      entropy := entropy w; drawn := S (drawn w) |}).
Proof.
  intros H. unfold Session_new, init. run.
  destruct (str_cookies request !! name config) as [tok|]; [|reflexivity].
  destruct (String.eqb tok "") eqn:E; [reflexivity|].
  destruct H as [-> | ->]; [|reflexivity].
  rewrite String.eqb_refl in E. discriminate.
Qed.

(** C8: a cookie value that the token check refuses never reaches the
    collection, and is handled exactly as no cookie at all: the
    constructor returns (it does not raise) the very session, in the very
    world, that a request without the cookie gets; the record of calls to
    the collection and the collection itself are untouched. *)
Theorem malformed_token_never_looked_up (valid_token : string → bool)
    (config : Config) (request : Request) (tok : string) (w : World) :
  str_cookies request !! name config = Some tok →
  valid_token tok = false →
  ∃ s w',
    Session_new valid_token config request w = (Returned s, w')
    ∧ Session_new valid_token config {| str_cookies := ∅ |} w = (Returned s, w')
    ∧ calls w' = calls w
    ∧ store w' = store w
    ∧ id s = Some (entropy w (drawn w))
    ∧ items s = ∅
    ∧ modified s = true
    ∧ expired s = false.
Proof.
  intros Hc Hv.
  rewrite (Session_new_unusable valid_token config request)
    by (rewrite Hc; right; exact Hv).
  rewrite (Session_new_unusable valid_token config {| str_cookies := ∅ |})
    by (cbn [str_cookies]; rewrite lookup_empty; exact I).
  eexists _, _. repeat split; reflexivity.
Qed.

Lemma malformed_token_never_looked_up_witness :
  ∃ s w',
    Session_new valid_token_b64 config0 (with_cookie "../etc/passwd")
                (world_with tokA 5 false alice) = (Returned s, w')
    ∧ Session_new valid_token_b64 config0 {| str_cookies := ∅ |}
                  (world_with tokA 5 false alice) = (Returned s, w')
    ∧ calls w' = calls (world_with tokA 5 false alice)
    ∧ store w' = store (world_with tokA 5 false alice)
    ∧ id s = Some (entropy0 0)
    ∧ items s = ∅
    ∧ modified s = true
    ∧ expired s = false.
Proof.
  apply (malformed_token_never_looked_up valid_token_b64 config0
           (with_cookie "../etc/passwd") "../etc/passwd"
           (world_with tokA 5 false alice)); reflexivity.
Defined.

(** C9: with no identifier in the cookie (none, or an empty one) the
    constructor returns a session whose id is the token [create_token]
    generates at that call, the entropy source moving on by one draw; the
    id passes the token check whenever the generator's tokens do; the dict
    is empty, [modified] is true, [expired] is false and [last_update] is
    now.  The collection is not called and holds what it held, so no
    stored document was marked expired. *)
Theorem no_cookie_gives_new (valid_token : string → bool) (config : Config)
    (request : Request) (w : World) :
  str_cookies request !! name config = None
  ∨ str_cookies request !! name config = Some "" →
  (∀ n, valid_token (entropy w n) = true) →
  ∃ s w',
    Session_new valid_token config request w = (Returned s, w')
    ∧ id s = Some (entropy w (drawn w))
    ∧ drawn w' = S (drawn w)
    ∧ (∃ t, id s = Some t ∧ valid_token t = true)
    ∧ items s = ∅
    ∧ modified s = true
    ∧ expired s = false
    ∧ last_update s = Some (VTime (clock w))
    ∧ store w' = store w
    ∧ calls w' = calls w.
Proof.
  intros Hc Hv.
  rewrite Session_new_unusable.
  - eexists _, _. repeat split; try reflexivity.
    eexists. split; [reflexivity | apply Hv].
  - destruct Hc as [-> | ->]; [exact I | left; reflexivity].
Qed.

Lemma entropy0_valid (n : nat) : valid_token_b64 (entropy0 n) = true.
Proof. destruct n as [|[|[|n]]]; reflexivity. Qed.

Lemma no_cookie_gives_new_witness :
  ∃ s w',
    Session_new valid_token_b64 config0 no_cookie (world_with tokB 5 false alice)
      = (Returned s, w')
    ∧ id s = Some (entropy0 0)
    ∧ drawn w' = 1%nat
    ∧ (∃ t, id s = Some t ∧ valid_token_b64 t = true)
    ∧ items s = ∅
    ∧ modified s = true
    ∧ expired s = false
    ∧ last_update s = Some (VTime t0)
    ∧ store w' = store (world_with tokB 5 false alice)
    ∧ calls w' = calls (world_with tokB 5 false alice).
Proof.
  apply (no_cookie_gives_new valid_token_b64 config0 no_cookie
           (world_with tokB 5 false alice)).
  - left. reflexivity.
  - exact entropy0_valid.
Defined.

(** ** The collection under [update] and [save] *)

(** An [update] changes nothing but documents the query matches, and what
    it changes gets the field set and nothing else. *)
Lemma coll_update_Forall2 (q : query) (k : string) (v : value) (c : list document) :
  Forall2 (λ d d', d' = d ∨ (q d = true ∧ d' = <[k := v]> d))
          c (coll_update q k v c).
Proof.
  induction c as [|d c IH]; simpl.
  - constructor.
  - destruct (q d) eqn:Hq.
    + constructor; [right; split; [exact Hq | reflexivity]|].
      apply Forall_Forall2_diag, Forall_forall. intros; left; reflexivity.
    + constructor; [left; reflexivity | exact IH].
Qed.

(** A document that does not match stays where it is. *)
Lemma coll_update_unmatched (q : query) (k : string) (v : value)
    (c : list document) (i : nat) (d : document) :
  c !! i = Some d → q d = false → coll_update q k v c !! i = Some d.
Proof.
  intros Hi Hq.
  destruct (Forall2_lookup_l _ _ _ _ _ (coll_update_Forall2 q k v c) Hi)
    as (d' & Hd' & [-> | [Hm _]]).
  - exact Hd'.
  - congruence.
Qed.

(** ** Group revocation *)

(** C5, as stated, fails: the session of [tokA] holds no [user_id], so it
    does not match the query (no stored document does), yet
    [expire_set] turns the entity's [expired] flag from false to true. *)
Lemma expire_set_flags_unmatched_entity :
  ¬ (own_session_matches (data_field_is "user_id" 55) (active tokA alice)
       (world_with tokA 5 false alice) = false →
     expired (self_after (expire_set (data_field_is "user_id" 55)
                (active tokA alice) (world_with tokA 5 false alice)))
     = expired (active tokA alice)).
Proof.
  intros H. specialize (H eq_refl). vm_compute in H. discriminate H.
Qed.

(** C5, amended: for every query [P], [expire_set(P)] returns, and leaves
    every stored document that does not match [P] exactly as and where it
    was; the only change it makes to any document is setting
    [expired = true] on one that matches [P].  Whether or not the entity's
    own session matches, the entity's [expired] flag ends up true; its id,
    [modified] flag and dict are not touched. *)
Theorem expire_set_effect (P : query) (s : Session) (w : World) :
  result (expire_set P s w) = Returned ()
  ∧ expired (self_after (expire_set P s w)) = true
  ∧ id (self_after (expire_set P s w)) = id s
  ∧ modified (self_after (expire_set P s w)) = modified s
  ∧ items (self_after (expire_set P s w)) = items s
  ∧ Forall2 (λ d d', d' = d ∨ (P d = true ∧ d' = <["expired" := VBool true]> d))
            (store w) (store (world_after (expire_set P s w)))
  ∧ (∀ i d, store w !! i = Some d → P d = false →
            store (world_after (expire_set P s w)) !! i = Some d).
Proof.
  unfold expire_set. run. repeat split.
  - apply coll_update_Forall2.
  - intros i d. apply coll_update_unmatched.
Qed.

(** ** Inherited dict methods *)

(** [save] as one equation.  The [modified] flag does not occur in it. *)
Lemma save_eq (s : Session) (w : World) :
  save s w =
  if expired s then (Returned (), s, w)
  else
    (Returned (),
     {| id := id s; modified := modified s; new := new s; expired := expired s;
        last_update := Some (VTime (clock w)); session_id := session_id s;
        items := items s |},
     {| store := coll_save (<["last_update" := VTime (clock w)]>
                             (<["session_id" := id_value (id s)]>
                               (<["data" := VDict (items s)]> ∅))) (store w);
        calls := calls w ++ [CallSave]; clock := clock w;
        entropy := entropy w; drawn := drawn w |}).
Proof.
  destruct s as [i m n [] l si it]; reflexivity.
Qed.

(** C10, as stated, fails in its consequence: there is no session,
    unmodified or not, for which a write made through [update] is stored
    differently from the same write made by subscript assignment.  [save]
    does not look at [modified], so nothing is lost on account of the
    flag. *)
Lemma inherited_write_stored_like_subscript :
  ¬ ∃ (s : Session) (w : World) (k : string) (v : value),
      modified s = false
      ∧ store (world_after ((update {[ k := v ]};; save) s w))
        ≠ store (world_after ((setitem k v;; save) s w)).
Proof.
  intros (s & w & k & v & _ & Hne). apply Hne.
  destruct s as [i m n [] l si it]; unfold update, setitem; run;
    rewrite !save_eq; run; rewrite <- ?(insert_union_singleton_l it);
    reflexivity.
Qed.

(** C10, amended: the inherited [update], [pop], [popitem], [setdefault]
    and [clear] leave [modified] as it was, while changing the dict as
    dict methods do.  What [save] writes does not depend on [modified]:
    the world after [save] is the same whichever value the flag has, and a
    write through [update] is stored exactly as the same write by
    subscript assignment. *)
Theorem inherited_methods_leave_modified (other : dict) (k : string)
    (dflt : value) (odflt : option value) (b : bool) (s : Session) (w : World) :
  modified (self_after (update other s w)) = modified s
  ∧ items (self_after (update other s w)) = other ∪ items s
  ∧ modified (self_after (pop k odflt s w)) = modified s
  ∧ modified (self_after (popitem s w)) = modified s
  ∧ modified (self_after (setdefault k dflt s w)) = modified s
  ∧ modified (self_after (clear s w)) = modified s
  ∧ items (self_after (clear s w)) = ∅
  ∧ world_after (save (self_after (set_modified b s w)) w) = world_after (save s w)
  ∧ world_after ((update {[ k := dflt ]};; save) s w)
    = world_after ((setitem k dflt;; save) s w).
Proof.
  destruct s as [i m n e l si it].
  unfold update, pop, popitem, setdefault, clear.
  repeat split; run; try reflexivity.
  - destruct (it !! k), odflt; reflexivity.
  - destruct (map_to_list it) as [|[k' v'] rest]; reflexivity.
  - destruct (it !! k); reflexivity.
  - rewrite !save_eq. run. destruct e; reflexivity.
  - unfold setitem. run. rewrite !save_eq. run.
    rewrite <- ?(insert_union_singleton_l it). destruct e; reflexivity.
Qed.

(** ** Rotation *)

(** C2: [rotate] expires the current id in the collection and draws a new
    token, but assigns it to the attribute [session_id]: [id], the
    attribute [save] and the cookie read, is still the old one.  The flags
    end as the claim says and the dict is kept; a following [save] stores
    the session under the old id. *)
Theorem rotate_keeps_old_id (s : Session) (w : World) :
  result (rotate s w) = Returned ()
  ∧ id (self_after (rotate s w)) = id s
  ∧ session_id (self_after (rotate s w)) = Some (entropy w (drawn w))
  ∧ expired (self_after (rotate s w)) = false
  ∧ modified (self_after (rotate s w)) = true
  ∧ items (self_after (rotate s w)) = items s
  ∧ store (world_after (rotate s w))
    = coll_update (session_id_is (id s)) "expired" (VBool true) (store w)
  ∧ last (store (world_after ((rotate;; save) s w))) ≫= (.!! "session_id")
    = Some (id_value (id s)).
Proof.
  destruct s as [i m n e l si it].
  unfold rotate, expire. repeat split; run; try reflexivity.
  rewrite save_eq. run. unfold coll_save. rewrite last_snoc. simpl.
  rewrite lookup_insert_ne by discriminate.
  rewrite lookup_insert_ne by discriminate.
  rewrite lookup_insert. reflexivity.
Qed.

(** ** Where the code departs from its documentation *)

(** C1: a saved session does not load again.  A first visit stores
    [{'user': 'alice'}] and is saved: the document [save] writes has no
    [expired] field, and the next construction presenting the id raises
    [KeyError] on [doc['expired']].  Given a document that does carry
    [expired = False], the loop that maps the data reads [doc[k]] where
    [doc['data'][k]] is meant, and raises [KeyError] on the first key. *)
Theorem round_trip_raises :
  first_visit.1 = Returned (the_session first_visit)
  ∧ id (the_session first_visit) = Some tokA
  ∧ result first_visit_saved = Returned ()
  ∧ items (self_after first_visit_saved) = alice
  ∧ expired (self_after first_visit_saved) = false
  ∧ calls (world_after first_visit_saved) = [CallSave]
  ∧ (Session_new valid_token_b64 config0 (with_cookie tokA)
       (world_after first_visit_saved)).1 = Raised (KeyError "expired")
  ∧ (Session_new valid_token_b64 config0 (with_cookie tokA)
       (world_with tokA 5 false alice)).1 = Raised (KeyError "user").
Proof.
  repeat split; vm_compute; reflexivity.
Qed.

(** C3: an id on which [expire()] was called comes back into the
    collection.  On a first visit the handler rotates the session (with or
    without an [expire()] of its own before): [expire] runs on [tokA], but
    [rotate] leaves [tokA] as the id and clears the flag, so [save] stores
    a document for [tokA] that carries no [expired] mark.  The next
    construction presenting [tokA] finds it; it does not get a new
    session (it raises on the missing field). *)
Theorem revoked_id_is_stored_again :
  id (the_session first_visit) = Some tokA
  ∧ calls (world_after first_visit_rotated) = [CallUpdate; CallSave]
  ∧ calls (world_after first_visit_expired_rotated)
    = [CallUpdate; CallUpdate; CallSave]
  ∧ store (world_after first_visit_expired_rotated)
    = store (world_after first_visit_rotated)
  ∧ id (self_after first_visit_rotated) = Some tokA
  ∧ expired (self_after first_visit_rotated) = false
  ∧ length (store (world_after first_visit_rotated)) = 1%nat
  ∧ coll_find_one (session_id_is (Some tokA))
      (store (world_after first_visit_rotated)) ≫= (.!! "session_id")
    = Some (VStr tokA)
  ∧ coll_find_one (session_id_is (Some tokA))
      (store (world_after first_visit_rotated)) ≫= (.!! "expired")
    = None
  ∧ (Session_new valid_token_b64 config0 (with_cookie tokA)
       (world_after first_visit_rotated)).1 = Raised (KeyError "expired").
Proof.
  repeat split; vm_compute; reflexivity.
Qed.

(** C4: after an idle timeout the constructor expires the old id, and
    [reset] gives the object a new one ([tokA]) but leaves the [expired]
    flag that [expire] has just set.  The session handed to the handler is
    marked expired, [save] returns without a write, and the response
    carries a cookie for an id that has no document. *)
Theorem idle_timeout_session_is_not_saved :
  idle_visit.1 = Returned (the_session idle_visit)
  ∧ calls idle_visit.2 = [CallFindOne; CallUpdate]
  ∧ store idle_visit.2 !! 0%nat ≫= (.!! "expired") = Some (VBool true)
  ∧ id (the_session idle_visit) = Some tokA
  ∧ items (the_session idle_visit) = ∅
  ∧ modified (the_session idle_visit) = true
  ∧ expired (the_session idle_visit) = true
  ∧ save (the_session idle_visit) idle_visit.2
    = (Returned (), the_session idle_visit, idle_visit.2)
  ∧ result (on_response config0 (the_session idle_visit) idle_visit.2)
    = Returned {| cookie_name := "session"; cookie_value := Some tokA;
                  cookie_path := "/"; cookie_domain := Some "localhost";
                  cookie_secure := false; cookie_httponly := true |}
  ∧ coll_find_one (session_id_is (Some tokA))
      (store (world_after (on_response config0 (the_session idle_visit) idle_visit.2)))
    = None.
Proof.
  repeat split; vm_compute; reflexivity.
Qed.

(** ** What does hold of revocation *)

Lemma marked_trans (d1 d2 d3 : document) :
  marked d1 d2 → marked d2 d3 → marked d1 d3.
Proof.
  intros [-> | ->] [-> | ->]; try (left; reflexivity); right; try reflexivity.
  apply insert_insert_eq.
Qed.

(** A mark changes neither the id of a document nor its [last_update],
    and never removes the mark. *)
Lemma marked_session_id (i : option string) (d d' : document) :
  marked d d' → session_id_is i d' = session_id_is i d.
Proof.
  intros [-> | ->]; [reflexivity|].
  unfold session_id_is. rewrite lookup_insert_ne by discriminate. reflexivity.
Qed.

Lemma marked_last_update (d d' : document) :
  marked d d' → d' !! "last_update" = d !! "last_update".
Proof.
  intros [-> | ->]; [reflexivity|].
  rewrite lookup_insert_ne by discriminate. reflexivity.
Qed.

Lemma marked_expired (d d' : document) :
  marked d d' → doc_expired d = true → doc_expired d' = true.
Proof.
  intros [-> | ->] H; [exact H|].
  unfold doc_expired. rewrite lookup_insert_eq. reflexivity.
Qed.

Lemma store_grows_refl (c : list document) : store_grows c c.
Proof.
  exists c, []. split; [symmetry; apply app_nil_r|].
  apply Forall_Forall2_diag, Forall_forall. intros; left; reflexivity.
Qed.

Lemma store_grows_trans (c1 c2 c3 : list document) :
  store_grows c1 c2 → store_grows c2 c3 → store_grows c1 c3.
Proof.
  intros (a & ta & -> & Ha) (b & tb & -> & Hb).
  apply Forall2_app_inv_l in Hb as (b1 & b2 & Hb1 & Hb2 & ->).
  exists b1, (b2 ++ tb)%list. split; [symmetry; apply app_assoc|].
  eapply Forall2_trans; [|exact Ha|exact Hb1].
  intros x y z. apply marked_trans.
Qed.

Lemma coll_update_grows (q : query) (c : list document) :
  store_grows c (coll_update q "expired" (VBool true) c).
Proof.
  exists (coll_update q "expired" (VBool true) c), [].
  split; [symmetry; apply app_nil_r|].
  eapply Forall2_impl; [apply coll_update_Forall2|].
  intros d d' [-> | [_ ->]]; [left | right]; reflexivity.
Qed.

Lemma coll_save_grows (doc : document) (c : list document) :
  store_grows c (coll_save doc c).
Proof.
  eexists c, _. split; [reflexivity|].
  apply Forall_Forall2_diag, Forall_forall. intros; left; reflexivity.
Qed.

(** The loop that maps the data never touches the world. *)
Lemma load_keys_world (doc : document) (ks : list string) (s : Session) (w : World) :
  world_after (load_keys doc ks s w) = w.
Proof.
  revert s. induction ks as [|k ks IH]; intros s; [reflexivity|].
  simpl. unfold dict_getitem. destruct (doc !! k) as [v|]; [|reflexivity].
  unfold setitem. run. apply IH.
Qed.

(** From a found document the constructor either leaves the collection
    alone or, on an idle timeout, expires the object's id in it. *)
Lemma init_from_doc_store (config : Config) (doc : document) (s : Session) (w : World) :
  store (world_after (init_from_doc config doc s w)) = store w
  ∨ store (world_after (init_from_doc config doc s w))
    = coll_update (session_id_is (id s)) "expired" (VBool true) (store w).
Proof.
  destruct s as [i m n e l si it].
  unfold init_from_doc, dict_getitem.
  destruct (doc !! "last_update") as [lu|]; [|left; reflexivity].
  destruct (doc !! "expired") as [ex|]; [|left; reflexivity].
  run. destruct (truthy ex); [left; reflexivity|].
  unfold datetime_minus.
  destruct lu; try (left; reflexivity).
  run.
  destruct (timeout config <? _).
  - right. reflexivity.
  - destruct (doc !! "data") as [data|]; [|left; reflexivity].
    unfold keys. destruct data; try (left; reflexivity).
    run. left.
    match goal with
    | |- context [load_keys ?d ?ks ?s ?w] =>
        pose proof (load_keys_world d ks s w) as Hw;
        destruct (load_keys d ks s w) as [[[u|ex'] s'] w']
    end; unfold world_after in Hw; simpl in Hw; subst; reflexivity.
Qed.

Lemma Session_new_store (valid_token : string → bool) (config : Config)
    (request : Request) (w : World) :
  store_grows (store w) (store (Session_new valid_token config request w).2).
Proof.
  unfold Session_new, init. run.
  destruct (str_cookies request !! name config) as [tok|];
    [|apply store_grows_refl].
  destruct (String.eqb tok ""); [apply store_grows_refl|].
  destruct (valid_token tok); [|apply store_grows_refl].
  cbn [negb].
  destruct (coll_find_one _ (store w)) as [d|]; [|apply store_grows_refl].
  destruct (Nat.eqb (size d) 0); [apply store_grows_refl|].
  match goal with
  | |- context [init_from_doc ?c ?d ?s ?w'] =>
      destruct (init_from_doc_store c d s w') as [H | H];
      destruct (init_from_doc c d s w') as [[[u|ex] s'] w'']
  end; unfold world_after in H; simpl in H; simpl; rewrite H;
    first [apply store_grows_refl | apply coll_update_grows].
Qed.

(** Every step of the world keeps the stored documents in place and
    never takes a mark back. *)
Lemma core_step_grows (w w' : World) :
  core_step w w' → store_grows (store w) (store w').
Proof.
  destruct 1 as [vt cfg req w | s w | s w | P s w | s w | s w | t w].
  - apply Session_new_store.
  - apply store_grows_refl.
  - apply coll_update_grows.
  - apply coll_update_grows.
  - apply coll_update_grows.
  - rewrite save_eq. destruct (expired s); simpl;
      [apply store_grows_refl | apply coll_save_grows].
  - apply store_grows_refl.
Qed.

Lemma core_steps_grow (w w' : World) :
  rtc core_step w w' → store_grows (store w) (store w').
Proof.
  induction 1 as [w | w1 w2 w3 H12 _ IH].
  - apply store_grows_refl.
  - eapply store_grows_trans; [apply core_step_grows, H12 | exact IH].
Qed.

(** What [find_one] returns for an id keeps its place as the collection
    grows. *)
Lemma coll_find_one_grows (i : option string) (c c' : list document) (d : document) :
  store_grows c c' →
  coll_find_one (session_id_is i) c = Some d →
  ∃ d', coll_find_one (session_id_is i) c' = Some d' ∧ marked d d'.
Proof.
  intros (c1 & tail & -> & HF). revert d.
  induction HF as [|x y l k Hxy HF IH]; intros d Hd; [discriminate|].
  simpl in *. rewrite (marked_session_id i x y Hxy).
  destruct (session_id_is i x).
  - injection Hd as <-. exists y. split; [reflexivity | exact Hxy].
  - apply IH, Hd.
Qed.

(** [expire] sets the mark on the document [find_one] returns for the
    object's id. *)
Lemma expire_marks_found (s : Session) (w : World) (d : document) :
  coll_find_one (session_id_is (id s)) (store w) = Some d →
  coll_find_one (session_id_is (id s)) (store (world_after (expire s w)))
  = Some (<["expired" := VBool true]> d).
Proof.
  unfold expire. run. generalize (id s) as i. intros i.
  induction (store w) as [|x c IH]; intros Hd; [discriminate|].
  simpl in *. destruct (session_id_is i x) eqn:Hx.
  - injection Hd as <-. simpl.
    rewrite (marked_session_id i x (<["expired" := VBool true]> x))
      by (right; reflexivity).
    rewrite Hx. reflexivity.
  - simpl. rewrite Hx. apply IH, Hd.
Qed.

(** A construction that finds an expired document resets. *)
Lemma Session_new_expired (valid_token : string → bool) (config : Config)
    (request : Request) (w : World) (T : string) (d : document) :
  str_cookies request !! name config = Some T →
  T ≠ "" →
  valid_token T = true →
  coll_find_one (session_id_is (Some T)) (store w) = Some d →
  is_Some (d !! "last_update") →
  doc_expired d = true →
  Session_new valid_token config request w =
  (Returned {| id := Some (entropy w (drawn w)); modified := true; new := None;
               expired := false; last_update := Some (VTime (clock w));
               session_id := None; items := ∅ |},
   {| store := store w; calls := calls w ++ [CallFindOne]; clock := clock w;
      entropy := entropy w; drawn := S (drawn w) |}).
Proof.
  intros Hc HT Hv Hf [lu Hlu] He.
  unfold Session_new, init. run. rewrite Hc.
  destruct (String.eqb_spec T ""); [contradiction|].
  rewrite Hv. cbn [negb]. rewrite Hf.
  destruct (Nat.eqb_spec (size d) 0) as [Hz|_].
  { apply map_size_empty_inv in Hz. subst d.
    rewrite lookup_empty in Hlu. discriminate. }
  unfold init_from_doc, dict_getitem, doc_expired in *. rewrite Hlu.
  destruct (d !! "expired") as [ex|]; [|discriminate].
  run. rewrite He. reflexivity.
Qed.

(** X1: revocation of a stored id is permanent.  Let [T] be the id of a
    session whose document is in the collection (as [find_one] returns it,
    with a [last_update]), and let [expire()] run on it.  Then, however
    the world moves on (constructions, [reset], [expire], [expire_set],
    [rotate], [save] by any session, time passing), the document
    [find_one] returns for [T] is expired, and a construction presenting
    [T] returns a session with a newly generated id and an empty dict. *)
Theorem revoked_stored_id_stays_revoked (valid_token : string → bool)
    (config : Config) (request : Request) (s : Session) (w w' : World)
    (T : string) (d : document) :
  id s = Some T →
  coll_find_one (session_id_is (Some T)) (store w) = Some d →
  is_Some (d !! "last_update") →
  rtc core_step (world_after (expire s w)) w' →
  str_cookies request !! name config = Some T →
  T ≠ "" →
  valid_token T = true →
  (∃ d', coll_find_one (session_id_is (Some T)) (store w') = Some d'
         ∧ doc_expired d' = true)
  ∧ ∃ s', Session_new valid_token config request w'
          = (Returned s',
             {| store := store w'; calls := calls w' ++ [CallFindOne];
                clock := clock w'; entropy := entropy w'; drawn := S (drawn w') |})
        ∧ id s' = Some (entropy w' (drawn w'))
        ∧ items s' = ∅
        ∧ modified s' = true.
Proof.
  intros Hid Hf Hlu Hsteps Hc HT Hv.
  rewrite <- Hid in Hf. apply expire_marks_found in Hf. rewrite Hid in Hf.
  apply core_steps_grow in Hsteps.
  destruct (coll_find_one_grows _ _ _ _ Hsteps Hf) as (d' & Hf' & Hm).
  assert (He : doc_expired d' = true).
  { apply (marked_expired _ _ Hm). unfold doc_expired.
    rewrite lookup_insert_eq. reflexivity. }
  assert (Hlu' : is_Some (d' !! "last_update")).
  { rewrite (marked_last_update _ _ Hm).
    rewrite lookup_insert_ne by discriminate. exact Hlu. }
  split; [exists d'; split; assumption|].
  eexists. split; [apply (Session_new_expired _ _ _ _ T d'); assumption|].
  repeat split.
Qed.

Lemma revoked_stored_id_stays_revoked_witness :
  (∃ d', coll_find_one (session_id_is (Some tokC)) (store later_world) = Some d'
         ∧ doc_expired d' = true)
  ∧ ∃ s', Session_new valid_token_b64 config0 (with_cookie tokC) later_world
          = (Returned s',
             {| store := store later_world;
                calls := calls later_world ++ [CallFindOne];
                clock := clock later_world; entropy := entropy later_world;
                drawn := S (drawn later_world) |})
        ∧ id s' = Some (entropy later_world (drawn later_world))
        ∧ items s' = ∅
        ∧ modified s' = true.
Proof.
  apply (revoked_stored_id_stays_revoked valid_token_b64 config0
           (with_cookie tokC) (active tokC ∅) (world_with tokC 5 false ∅)
           later_world tokC (stored tokC (t0 - 5 * us_per_second) false ∅)).
  - reflexivity.
  - reflexivity.
  - eexists. reflexivity.
  - eapply rtc_l; [apply step_rotate|]. apply rtc_once, step_save.
  - reflexivity.
  - discriminate.
  - reflexivity.
Defined.

(** ** The defects in general *)




(** The age the constructor compares with the timeout is the whole
    seconds between the two instants. *)
Lemma age_seconds_floor (now t : Z) :
  days (datetime_sub now t) * (24 * 60 * 60) + seconds (datetime_sub now t)
  = (now - t) `div` us_per_second.
Proof.
  unfold datetime_sub, us_per_day, us_per_second. cbn [days seconds].
  set (d := now - t).
  rewrite (Z.div_mod d (24 * 60 * 60 * 1000000)) at 3 by lia.
  replace (24 * 60 * 60 * 1000000 * (d `div` (24 * 60 * 60 * 1000000)))
    with ((d `div` (24 * 60 * 60 * 1000000)) * (24 * 60 * 60) * 1000000) by lia.
  rewrite Z.div_add_l by lia. reflexivity.
Qed.

(** X3: after an idle timeout the constructed session is marked expired, for
    every stored document and clock: [expire] sets the flag, [reset]
    leaves it, and [save] then writes nothing. *)
Theorem idle_timeout_leaves_expired (valid_token : string → bool)
    (config : Config) (request : Request) (w : World) (T : string)
    (d : document) (t : Z) (ex : value) :
  str_cookies request !! name config = Some T →
  T ≠ "" →
  valid_token T = true →
  coll_find_one (session_id_is (Some T)) (store w) = Some d →
  d !! "last_update" = Some (VTime t) →
  d !! "expired" = Some ex →
  truthy ex = false →
  timeout config < (clock w - t) `div` us_per_second →
  ∃ s w',
    Session_new valid_token config request w = (Returned s, w')
    ∧ id s = Some (entropy w (drawn w))
    ∧ expired s = true
    ∧ store w' = coll_update (session_id_is (Some T)) "expired" (VBool true) (store w)
    ∧ save s w' = (Returned (), s, w').
Proof.
  intros Hc HT Hv Hf Hlu Hex Htr Hage.
  unfold Session_new, init. run. rewrite Hc.
  destruct (String.eqb_spec T ""); [contradiction|].
  rewrite Hv. cbn [negb]. rewrite Hf.
  destruct (Nat.eqb_spec (size d) 0) as [Hz|_].
  { apply map_size_empty_inv in Hz. subst d.
    rewrite lookup_empty in Hlu. discriminate. }
  unfold init_from_doc, dict_getitem. rewrite Hlu, Hex. run. rewrite Htr.
  unfold datetime_minus. run. rewrite age_seconds_floor.
  destruct (Z.ltb_spec (timeout config) ((clock w - t) `div` us_per_second));
    [|lia].
  unfold expire. run.
  eexists _, _. repeat split.
Qed.

Lemma idle_timeout_leaves_expired_witness :
  ∃ s w',
    Session_new valid_token_b64 config0 (with_cookie tokB)
                (world_with tokB 601 false alice) = (Returned s, w')
    ∧ id s = Some (entropy0 0)
    ∧ expired s = true
    ∧ store w' = coll_update (session_id_is (Some tokB)) "expired" (VBool true)
                   (store (world_with tokB 601 false alice))
    ∧ save s w' = (Returned (), s, w').
Proof.
  apply (idle_timeout_leaves_expired valid_token_b64 config0 (with_cookie tokB)
           (world_with tokB 601 false alice) tokB
           (stored tokB (t0 - 601 * us_per_second) false alice)
           (t0 - 601 * us_per_second) (VBool false));
    [reflexivity | discriminate | reflexivity | reflexivity | reflexivity
    | reflexivity | reflexivity | reflexivity].
Defined.

(** ** Loading a stored session *)

(** With a well-formed token that [find_one] has a document for, the
    constructor is [init_from_doc] on that document. *)
Lemma Session_new_found (valid_token : string → bool) (config : Config)
    (request : Request) (w : World) (T : string) (d : document) :
  str_cookies request !! name config = Some T →
  T ≠ "" →
  valid_token T = true →
  coll_find_one (session_id_is (Some T)) (store w) = Some d →
  d ≠ ∅ →
  Session_new valid_token config request w =
  match init_from_doc config d (presenting T) (looked_up w) with
  | (Returned _, s, w') => (Returned s, w')
  | (Raised e, _, w') => (Raised e, w')
  end.
Proof.
  intros Hc HT Hv Hf Hne.
  unfold Session_new, init. run. rewrite Hc.
  destruct (String.eqb_spec T ""); [contradiction|].
  rewrite Hv. cbn [negb]. rewrite Hf.
  destruct (Nat.eqb_spec (size d) 0) as [Hz|_]; [|reflexivity].
  apply map_size_empty_inv in Hz. contradiction.
Qed.

Lemma has_field_nonempty (d : document) (k : string) :
  is_Some (d !! k) → d ≠ ∅.
Proof.
  intros [v Hv] ->. rewrite lookup_empty in Hv. discriminate.
Qed.

(** The loop [for k in ks: self[k] = doc[k]] when every key is a field of
    the document: it returns, and the dict holds the document's field for
    each key of [ks] and what it held for the others. *)
Lemma load_keys_returns (doc : document) (ks : list string) (s : Session) (w : World) :
  Forall (λ k, is_Some (doc !! k)) ks →
  ∃ s', load_keys doc ks s w = (Returned (), s', w)
        ∧ id s' = id s ∧ expired s' = expired s
        ∧ last_update s' = last_update s
        ∧ ∀ k, items s' !! k = if decide (k ∈ ks) then doc !! k else items s !! k.
Proof.
  revert s. induction ks as [|k ks IH]; intros s HF.
  - exists s. split; [reflexivity|]. do 3 (split; [reflexivity|]). intros k.
    destruct (decide (k ∈ [])) as [Hin|_]; [inversion Hin | reflexivity].
  - apply Forall_cons in HF as [[v Hv] HF].
    simpl. unfold dict_getitem. rewrite Hv. unfold setitem. run.
    destruct (IH {| id := id s; modified := true; new := new s;
                    expired := expired s; last_update := last_update s;
                    session_id := session_id s;
                    items := <[k := v]> (items s) |} HF)
      as (s' & -> & Hi & He & Hl & Hit).
    exists s'. split; [reflexivity|]. do 3 (split; [assumption|]).
    intros j. rewrite Hit. cbn [items].
    destruct (decide (j ∈ ks)) as [Hin|Hnin].
    + rewrite decide_True by (right; exact Hin). reflexivity.
    + destruct (decide (j = k)) as [->|Hjk].
      * rewrite decide_True by left. rewrite lookup_insert_eq. symmetry. exact Hv.
      * rewrite decide_False by (intros [?|?]%elem_of_cons; contradiction).
        apply lookup_insert_ne. congruence.
Qed.

(** The same loop when some key is not a field of the document: it
    raises [KeyError] on such a key, and leaves the world alone. *)
Lemma load_keys_raises (doc : document) (ks : list string) (s : Session) (w : World) :
  Exists (λ k, doc !! k = None) ks →
  ∃ k s', load_keys doc ks s w = (Raised (KeyError k), s', w)
          ∧ k ∈ ks ∧ doc !! k = None.
Proof.
  revert s. induction ks as [|k ks IH]; intros s HE.
  - inversion HE.
  - simpl. unfold dict_getitem. destruct (doc !! k) as [v|] eqn:Hk.
    + apply Exists_cons in HE as [HE|HE]; [congruence|].
      unfold setitem. run.
      destruct (IH {| id := id s; modified := true; new := new s;
                      expired := expired s; last_update := last_update s;
                      session_id := session_id s;
                      items := <[k := v]> (items s) |} HE)
        as (k' & s' & -> & Hin & Hn).
      exists k', s'. repeat split; [right; exact Hin | exact Hn].
    + exists k, s. repeat split; [left | exact Hk].
Qed.

(** The keys [doc['data'].keys()] yields are those the data holds. *)
Lemma keys_of_dict (data : dict) (k : string) :
  k ∈ (map_to_list data).*1 ↔ is_Some (data !! k).
Proof.
  rewrite list_elem_of_fmap. split.
  - intros ([k' v] & -> & Hin). apply elem_of_map_to_list in Hin.
    exists v. exact Hin.
  - intros [v Hv]. exists (k, v). split; [reflexivity|].
    apply elem_of_map_to_list. exact Hv.
Qed.

(** The steps of [init_from_doc] up to the loop, for a document that is
    not expired and not idle too long. *)
Lemma init_from_doc_within (config : Config) (d : document) (T : string)
    (w : World) (t : Z) (ex : value) (data : dict) :
  d !! "last_update" = Some (VTime t) →
  d !! "expired" = Some ex →
  truthy ex = false →
  (clock w - t) `div` us_per_second ≤ timeout config →
  d !! "data" = Some (VDict data) →
  init_from_doc config d (presenting T) w =
  (load_keys d (map_to_list data).*1;; set_modified false)
    {| id := Some T; modified := false; new := None; expired := false;
       last_update := Some (VTime t); session_id := None; items := ∅ |} w.
Proof.
  intros Hlu Hex Htr Hage Hdata.
  unfold init_from_doc, dict_getitem, presenting. rewrite Hlu, Hex, Hdata. run.
  rewrite Htr. unfold datetime_minus. run. rewrite age_seconds_floor.
  destruct (Z.ltb_spec (timeout config) ((clock w - t) `div` us_per_second));
    [lia|].
  reflexivity.
Qed.

(** X4: what a construction loads.  For a well-formed token whose document
    is not expired and within the idle time (whole seconds of age at most
    the timeout), and whose data keys all name top-level fields of the
    document, the constructor makes the one [find_one] call, leaves the
    collection alone and returns the session of that id with
    [modified = false], [expired = false], the document's [last_update],
    and a dict that maps each key [k] of the data to [doc[k]], the
    document's own field of that name, and holds nothing else. *)
Theorem load_within_idle_time (valid_token : string → bool) (config : Config)
    (request : Request) (w : World) (T : string) (d : document) (t : Z)
    (ex : value) (data : dict) :
  str_cookies request !! name config = Some T →
  T ≠ "" →
  valid_token T = true →
  coll_find_one (session_id_is (Some T)) (store w) = Some d →
  d !! "last_update" = Some (VTime t) →
  d !! "expired" = Some ex →
  truthy ex = false →
  (clock w - t) `div` us_per_second ≤ timeout config →
  d !! "data" = Some (VDict data) →
  (∀ k, is_Some (data !! k) → is_Some (d !! k)) →
  ∃ s, Session_new valid_token config request w = (Returned s, looked_up w)
       ∧ id s = Some T
       ∧ modified s = false
       ∧ expired s = false
       ∧ last_update s = Some (VTime t)
       ∧ ∀ k, items s !! k = match data !! k with
                             | Some _ => d !! k
                             | None => None
                             end.
Proof.
  intros Hc HT Hv Hf Hlu Hex Htr Hage Hdata Hkeys.
  rewrite (Session_new_found _ _ _ _ T d Hc HT Hv Hf)
    by (apply (has_field_nonempty d "expired"); eauto).
  rewrite (init_from_doc_within config d T (looked_up w) t ex data)
    by assumption.
  destruct (load_keys_returns d (map_to_list data).*1
              {| id := Some T; modified := false; new := None; expired := false;
                 last_update := Some (VTime t); session_id := None; items := ∅ |}
              (looked_up w))
    as (s' & Hload & Hi & He & Hl & Hit).
  { apply Forall_forall. intros k Hk. apply Hkeys, keys_of_dict, Hk. }
  run. rewrite Hload. run.
  eexists. split; [reflexivity|]. cbn [id modified expired last_update items].
  split; [exact Hi|]. split; [reflexivity|]. split; [exact He|].
  split; [exact Hl|].
  intros k. rewrite Hit. cbn [items].
  destruct (decide (k ∈ (map_to_list data).*1)) as [Hin|Hnin].
  - apply keys_of_dict in Hin as [v ->]. reflexivity.
  - destruct (data !! k) as [v|] eqn:Hk; [|apply lookup_empty].
    exfalso. apply Hnin, keys_of_dict. eauto.
Qed.

Lemma load_within_idle_time_witness :
  ∃ s, Session_new valid_token_b64 config0 (with_cookie tokB)
         (world_with tokB 600 false {[ "session_id" := VInt 7 ]})
       = (Returned s, looked_up (world_with tokB 600 false {[ "session_id" := VInt 7 ]}))
       ∧ id s = Some tokB
       ∧ modified s = false
       ∧ expired s = false
       ∧ last_update s = Some (VTime (t0 - 600 * us_per_second))
       ∧ ∀ k, items s !! k
              = match ({[ "session_id" := VInt 7 ]} : dict) !! k with
                | Some _ => stored tokB (t0 - 600 * us_per_second) false
                              {[ "session_id" := VInt 7 ]} !! k
                | None => None
                end.
Proof.
  apply (load_within_idle_time valid_token_b64 config0 (with_cookie tokB)
           (world_with tokB 600 false {[ "session_id" := VInt 7 ]}) tokB
           (stored tokB (t0 - 600 * us_per_second) false {[ "session_id" := VInt 7 ]})
           (t0 - 600 * us_per_second) (VBool false) {[ "session_id" := VInt 7 ]}).
  - reflexivity.
  - discriminate.
  - reflexivity.
  - reflexivity.
  - reflexivity.
  - reflexivity.
  - reflexivity.
  - vm_compute. discriminate.
  - reflexivity.
  - intros k [v Hv]. apply lookup_singleton_Some in Hv as [<- _].
    eexists. reflexivity.
Defined.

(** X5: a payload key that is not a field of the document stops the
    construction.  For a document as above whose data has some key that
    names no top-level field, the constructor raises [KeyError] on such a
    key; it has made the one [find_one] call and left the collection
    alone. *)
Theorem load_raises_on_payload_key (valid_token : string → bool)
    (config : Config) (request : Request) (w : World) (T : string)
    (d : document) (t : Z) (ex : value) (data : dict) (k0 : string) :
  str_cookies request !! name config = Some T →
  T ≠ "" →
  valid_token T = true →
  coll_find_one (session_id_is (Some T)) (store w) = Some d →
  d !! "last_update" = Some (VTime t) →
  d !! "expired" = Some ex →
  truthy ex = false →
  (clock w - t) `div` us_per_second ≤ timeout config →
  d !! "data" = Some (VDict data) →
  is_Some (data !! k0) →
  d !! k0 = None →
  ∃ k, Session_new valid_token config request w
       = (Raised (KeyError k), looked_up w)
       ∧ is_Some (data !! k)
       ∧ d !! k = None.
Proof.
  intros Hc HT Hv Hf Hlu Hex Htr Hage Hdata Hk0 Hd0.
  rewrite (Session_new_found _ _ _ _ T d Hc HT Hv Hf)
    by (apply (has_field_nonempty d "expired"); eauto).
  rewrite (init_from_doc_within config d T (looked_up w) t ex data)
    by assumption.
  destruct (load_keys_raises d (map_to_list data).*1
              {| id := Some T; modified := false; new := None; expired := false;
                 last_update := Some (VTime t); session_id := None; items := ∅ |}
              (looked_up w))
    as (k & s' & Hload & Hin & Hn).
  { apply Exists_exists. exists k0. split; [apply keys_of_dict, Hk0 | exact Hd0]. }
  run. rewrite Hload.
  exists k. split; [reflexivity|]. split; [apply keys_of_dict, Hin | exact Hn].
Qed.

Lemma load_raises_on_payload_key_witness :
  ∃ k, Session_new valid_token_b64 config0 (with_cookie tokB)
         (world_with tokB 5 false alice)
       = (Raised (KeyError k), looked_up (world_with tokB 5 false alice))
       ∧ is_Some (alice !! k)
       ∧ stored tokB (t0 - 5 * us_per_second) false alice !! k = None.
Proof.
  apply (load_raises_on_payload_key valid_token_b64 config0 (with_cookie tokB)
           (world_with tokB 5 false alice) tokB
           (stored tokB (t0 - 5 * us_per_second) false alice)
           (t0 - 5 * us_per_second) (VBool false) alice "user").
  - reflexivity.
  - discriminate.
  - reflexivity.
  - reflexivity.
  - reflexivity.
  - reflexivity.
  - reflexivity.
  - vm_compute. discriminate.
  - reflexivity.
  - eexists. reflexivity.
  - reflexivity.
Defined.

(** X6: a well-formed token the collection has no document for.  The
    constructor makes one [find_one] call and resets: the session has a
    newly generated id, an empty dict, [modified = true] and
    [expired = false]; the collection is unchanged, and nothing is marked
    or inserted. *)
Theorem unknown_token_resets (valid_token : string → bool) (config : Config)
    (request : Request) (w : World) (T : string) :
  str_cookies request !! name config = Some T →
  T ≠ "" →
  valid_token T = true →
  coll_find_one (session_id_is (Some T)) (store w) = None →
  Session_new valid_token config request w =
  (Returned {| id := Some (entropy w (drawn w)); modified := true; new := None;
               expired := false; last_update := Some (VTime (clock w));
               session_id := None; items := ∅ |},
   {| store := store w; calls := calls w ++ [CallFindOne]; clock := clock w;
      entropy := entropy w; drawn := S (drawn w) |}).
Proof.
  intros Hc HT Hv Hf.
  unfold Session_new, init. run. rewrite Hc.
  destruct (String.eqb_spec T ""); [contradiction|].
  rewrite Hv. cbn [negb]. rewrite Hf. reflexivity.
Qed.

Lemma unknown_token_resets_witness :
  Session_new valid_token_b64 config0 (with_cookie tokC)
              (world_with tokB 5 false alice) =
  (Returned {| id := Some (entropy0 0); modified := true; new := None;
               expired := false; last_update := Some (VTime t0);
               session_id := None; items := ∅ |},
   {| store := store (world_with tokB 5 false alice);
      calls := calls (world_with tokB 5 false alice) ++ [CallFindOne];
      clock := t0; entropy := entropy0; drawn := 1 |}).
Proof.
  apply (unknown_token_resets valid_token_b64 config0 (with_cookie tokC)
           (world_with tokB 5 false alice) tokC);
    [reflexivity | discriminate | reflexivity | reflexivity].
Defined.

(** X7: documents the constructor cannot read.  For a well-formed token
    and the document [find_one] returns for it: without [last_update] the
    constructor raises [KeyError('last_update')], expired or not; without
    [expired] it raises [KeyError('expired')]; with a [last_update] that is
    no datetime and a falsy [expired] it raises [TypeError] at the
    subtraction; within the idle time, without [data] it raises
    [KeyError('data')], and with a [data] that is no dict it raises
    [AttributeError].  In each case one [find_one] call was made and the
    collection is as it was. *)
Theorem unreadable_document_raises (valid_token : string → bool)
    (config : Config) (request : Request) (w : World) (T : string)
    (d : document) :
  str_cookies request !! name config = Some T →
  T ≠ "" →
  valid_token T = true →
  coll_find_one (session_id_is (Some T)) (store w) = Some d →
  d ≠ ∅ →
  (d !! "last_update" = None →
   Session_new valid_token config request w
   = (Raised (KeyError "last_update"), looked_up w))
  ∧ (is_Some (d !! "last_update") → d !! "expired" = None →
     Session_new valid_token config request w
     = (Raised (KeyError "expired"), looked_up w))
  ∧ (∀ lu ex, d !! "last_update" = Some lu → d !! "expired" = Some ex →
       truthy ex = false → (∀ t, lu ≠ VTime t) →
       Session_new valid_token config request w = (Raised TypeError, looked_up w))
  ∧ (∀ t ex, d !! "last_update" = Some (VTime t) → d !! "expired" = Some ex →
       truthy ex = false →
       (clock w - t) `div` us_per_second ≤ timeout config →
       (d !! "data" = None →
        Session_new valid_token config request w
        = (Raised (KeyError "data"), looked_up w))
       ∧ (∀ v, d !! "data" = Some v → (∀ m, v ≠ VDict m) →
          Session_new valid_token config request w
          = (Raised AttributeError, looked_up w))).
Proof.
  intros Hc HT Hv Hf Hne.
  rewrite (Session_new_found _ _ _ _ T d Hc HT Hv Hf Hne).
  unfold init_from_doc, dict_getitem, presenting.
  repeat split.
  - intros ->. reflexivity.
  - intros [lu ->] ->. reflexivity.
  - intros lu ex -> -> Htr Hlu. run. rewrite Htr.
    unfold datetime_minus. destruct lu; try reflexivity.
    exfalso. eapply Hlu. reflexivity.
  - intros Hdata. rewrite H, H0, Hdata. run. rewrite H1.
    unfold datetime_minus. run. rewrite age_seconds_floor.
    change (clock (looked_up w)) with (clock w).
    destruct (Z.ltb_spec (timeout config) ((clock w - t) `div` us_per_second));
      [lia | reflexivity].
  - intros v Hdata Hnd. rewrite H, H0, Hdata. run. rewrite H1.
    unfold datetime_minus. run. rewrite age_seconds_floor.
    change (clock (looked_up w)) with (clock w).
    destruct (Z.ltb_spec (timeout config) ((clock w - t) `div` us_per_second));
      [lia|].
    unfold keys. destruct v; try reflexivity.
    exfalso. eapply Hnd. reflexivity.
Qed.

Lemma unreadable_document_raises_witness :
  Session_new valid_token_b64 config0 (with_cookie tokB) (bare_world tokB)
  = (Raised (KeyError "last_update"), looked_up (bare_world tokB)).
Proof.
  refine (proj1 (unreadable_document_raises valid_token_b64 config0
                   (with_cookie tokB) (bare_world tokB) tokB
                   {[ "session_id" := VStr tokB ]} _ _ _ _ _) _);
    [reflexivity | discriminate | reflexivity | reflexivity | | reflexivity].
  apply (has_field_nonempty _ "session_id"). eexists. reflexivity.
Defined.

(** ** The end of a request *)


(** ** What [update] reaches *)

(** With nothing for the query to match, [update] is the identity. *)
Lemma coll_update_none (q : query) (k : string) (v : value) (c : list document) :
  coll_find_one q c = None → coll_update q k v c = c.
Proof.
  induction c as [|x c IH]; simpl; [reflexivity|].
  destruct (q x); [discriminate|]. intros H. f_equal. apply IH, H.
Qed.

(** [update] changes the first match, and stops there. *)
Lemma coll_update_first (q : query) (k : string) (v : value)
    (pre post : list document) (d : document) :
  Forall (λ x, q x = false) pre →
  q d = true →
  coll_update q k v (pre ++ d :: post) = (pre ++ <[k := v]> d :: post)%list.
Proof.
  intros Hpre Hd. induction Hpre as [|x pre Hx _ IH]; simpl.
  - rewrite Hd. reflexivity.
  - rewrite Hx. f_equal. exact IH.
Qed.

(** X9: [expire_set(P)] marks one document, the first the collection
    holds that matches [P]; the documents before it do not match and the
    documents after it are left as they are, whether they match or not. *)
Theorem expire_set_marks_first_match_only (P : query) (s : Session) (w : World)
    (pre post : list document) (d : document) :
  store w = (pre ++ d :: post)%list →
  Forall (λ x, P x = false) pre →
  P d = true →
  store (world_after (expire_set P s w))
  = (pre ++ <["expired" := VBool true]> d :: post)%list.
Proof.
  intros Hw Hpre Hd. unfold expire_set. run. rewrite Hw.
  apply coll_update_first; assumption.
Qed.

Lemma expire_set_marks_first_match_only_witness :
  store (world_after (expire_set (data_field_is "user_id" 55)
                        (active tokB {[ "user_id" := VInt 55 ]}) users_world))
  = ([user_doc tokA 7]
     ++ <["expired" := VBool true]> (user_doc tokB 55) :: [user_doc tokC 55])%list.
Proof.
  apply (expire_set_marks_first_match_only (data_field_is "user_id" 55)
           (active tokB {[ "user_id" := VInt 55 ]}) users_world
           [user_doc tokA 7] [user_doc tokC 55] (user_doc tokB 55)).
  - reflexivity.
  - repeat constructor.
  - reflexivity.
Defined.

(** X10: [expire()] on a session that has no stored document, as every new
    session until its first [save]: the call is made, no document is
    changed and none is inserted, and the object's flag is set. *)
Theorem expire_before_first_save (s : Session) (w : World) :
  coll_find_one (session_id_is (id s)) (store w) = None →
  result (expire s w) = Returned ()
  ∧ store (world_after (expire s w)) = store w
  ∧ calls (world_after (expire s w)) = (calls w ++ [CallUpdate])%list
  ∧ expired (self_after (expire s w)) = true.
Proof.
  intros Hf. unfold expire. run.
  rewrite (coll_update_none _ _ _ _ Hf). repeat split.
Qed.

Lemma expire_before_first_save_witness :
  result (expire (the_session first_visit) first_visit.2) = Returned ()
  ∧ store (world_after (expire (the_session first_visit) first_visit.2))
    = store first_visit.2
  ∧ calls (world_after (expire (the_session first_visit) first_visit.2))
    = (calls first_visit.2 ++ [CallUpdate])%list
  ∧ expired (self_after (expire (the_session first_visit) first_visit.2)) = true.
Proof.
  apply (expire_before_first_save (the_session first_visit) first_visit.2).
  reflexivity.
Defined.

(** The mark does not change which documents a query on the id matches. *)
Lemma coll_update_expired_twice (i : option string) (c : list document) :
  coll_update (session_id_is i) "expired" (VBool true)
    (coll_update (session_id_is i) "expired" (VBool true) c)
  = coll_update (session_id_is i) "expired" (VBool true) c.
Proof.
  induction c as [|x c IH]; simpl; [reflexivity|].
  destruct (session_id_is i x) eqn:Hx; simpl.
  - rewrite (marked_session_id i x (<["expired" := VBool true]> x))
      by (right; reflexivity).
    rewrite Hx, insert_insert_eq. reflexivity.
  - rewrite Hx, IH. reflexivity.
Qed.

(** X11: [expire()] is idempotent on the collection and on the object: a
    second call marks the same document again and reaches no other
    document of the same id; only the call record grows. *)
Theorem expire_twice (s : Session) (w : World) :
  store (world_after ((expire;; expire) s w)) = store (world_after (expire s w))
  ∧ self_after ((expire;; expire) s w) = self_after (expire s w)
  ∧ calls (world_after ((expire;; expire) s w))
    = (calls w ++ [CallUpdate; CallUpdate])%list.
Proof.
  unfold expire. run. split; [apply coll_update_expired_twice|].
  split; [reflexivity|]. rewrite <- app_assoc. reflexivity.
Qed.

(** ** What [save] and the constructor leave in place *)



(** X13: no sequence of constructions and calls of [reset], [expire],
    [expire_set], [rotate] and [save], by whatever sessions, removes or
    moves a stored document, or changes one otherwise than by setting its
    [expired] field to [True]. *)
Theorem stored_documents_stay (w w' : World) (i : nat) (d : document) :
  rtc core_step w w' →
  store w !! i = Some d →
  ∃ d' : document,
    store w' !! i = Some d'
    ∧ (d' = d ∨ d' = <["expired" := VBool true]> d).
Proof.
  intros Hsteps Hi.
  destruct (core_steps_grow _ _ Hsteps) as (c1 & tail & Hw' & HF).
  destruct (Forall2_lookup_l _ _ _ _ _ HF Hi) as (d' & Hd' & Hm).
  exists d'. split; [|exact Hm].
  rewrite Hw'. apply lookup_app_l_Some, Hd'.
Qed.

Lemma stored_documents_stay_witness :
  ∃ d' : document,
    store later_world !! 0%nat = Some d'
    ∧ (d' = stored tokC (t0 - 5 * us_per_second) false ∅
       ∨ d' = <["expired" := VBool true]>
                (stored tokC (t0 - 5 * us_per_second) false ∅)).
Proof.
  apply (stored_documents_stay (world_with tokC 5 false ∅) later_world 0
           (stored tokC (t0 - 5 * us_per_second) false ∅)).
  - eapply rtc_l; [apply step_expire|].
    eapply rtc_l; [apply step_rotate|]. apply rtc_once, step_save.
  - reflexivity.
Defined.

Lemma coll_update_length (q : query) (k : string) (v : value) (c : list document) :
  length (coll_update q k v c) = length c.
Proof.
  symmetry. eapply Forall2_length, coll_update_Forall2.
Qed.

(** What a found document lets the constructor do to the world: draw a
    token or not, and at most one [update]. *)
Lemma init_from_doc_world (config : Config) (doc : document) (s : Session) (w : World) :
  clock (world_after (init_from_doc config doc s w)) = clock w
  ∧ ((store (world_after (init_from_doc config doc s w)) = store w
      ∧ calls (world_after (init_from_doc config doc s w)) = calls w)
     ∨ (store (world_after (init_from_doc config doc s w))
        = coll_update (session_id_is (id s)) "expired" (VBool true) (store w)
        ∧ calls (world_after (init_from_doc config doc s w))
          = (calls w ++ [CallUpdate])%list)).
Proof.
  destruct s as [i m n e l si it].
  unfold init_from_doc, dict_getitem.
  destruct (doc !! "last_update") as [lu|]; [|split; [|left]; split; reflexivity].
  destruct (doc !! "expired") as [ex|]; [|split; [|left]; split; reflexivity].
  run. destruct (truthy ex); [split; [|left]; split; reflexivity|].
  unfold datetime_minus.
  destruct lu; try (split; [|left]; split; reflexivity).
  run.
  destruct (timeout config <? _).
  - split; [reflexivity|]. right. split; reflexivity.
  - destruct (doc !! "data") as [data|]; [|split; [|left]; split; reflexivity].
    unfold keys. destruct data; try (split; [|left]; split; reflexivity).
    run.
    match goal with
    | |- context [load_keys ?d ?ks ?s ?w] =>
        pose proof (load_keys_world d ks s w) as Hw;
        destruct (load_keys d ks s w) as [[[u|ex'] s'] w']
    end; unfold world_after in Hw; simpl in Hw; subst;
      (split; [|left]; split; reflexivity).
Qed.

(** X14: a construction never writes a session: whatever the cookie and the
    collection hold, and whether [__init__] returns or raises, the
    collection has as many documents after it as before, the clock is not
    touched, and the calls it made are none, one [find_one], or one
    [find_one] followed by one [update]. *)
Theorem construction_never_inserts (valid_token : string → bool)
    (config : Config) (request : Request) (w : World) :
  length (store (Session_new valid_token config request w).2) = length (store w)
  ∧ clock (Session_new valid_token config request w).2 = clock w
  ∧ (calls (Session_new valid_token config request w).2 = calls w
     ∨ calls (Session_new valid_token config request w).2
       = (calls w ++ [CallFindOne])%list
     ∨ calls (Session_new valid_token config request w).2
       = (calls w ++ [CallFindOne; CallUpdate])%list).
Proof.
  unfold Session_new, init. run.
  destruct (str_cookies request !! name config) as [tok|];
    [|split; [|split; [|left]]; reflexivity].
  destruct (String.eqb tok ""); [split; [|split; [|left]]; reflexivity|].
  destruct (valid_token tok); [|split; [|split; [|left]]; reflexivity].
  cbn [negb].
  destruct (coll_find_one _ (store w)) as [d|];
    [|split; [|split; [|right; left]]; reflexivity].
  destruct (Nat.eqb (size d) 0);
    [split; [|split; [|right; left]]; reflexivity|].
  match goal with
  | |- context [init_from_doc ?c ?d ?s ?w'] =>
      destruct (init_from_doc_world c d s w') as (Hc & [[Hs Hk] | [Hs Hk]]);
      destruct (init_from_doc c d s w') as [[[u|ex] s'] w'']
  end; unfold world_after in Hc, Hs, Hk; simpl in Hc, Hs, Hk; simpl;
    rewrite Hc, Hs, Hk, ?coll_update_length;
    (split; [reflexivity|]; split; [reflexivity|]; right);
    first [left; reflexivity | right; rewrite <- app_assoc; reflexivity].
Qed.

(** ** The dict under subscripts *)

(** X15: what was assigned by subscript is what a subscript reads, until
    it is deleted: [session[k] = v] followed by [session[k]] returns [v];
    any other key reads as it did before the assignment; after
    [del session[k]] the read raises [KeyError(k)]; and a [del] of a key
    the dict does not hold raises [KeyError(k)] and leaves the dict as it
    was.  None of this reaches the collection. *)
Theorem subscript_round_trip (k k' : string) (v : value) (s : Session) (w : World) :
  result ((setitem k v;; getitem k) s w) = Returned v
  ∧ (k' ≠ k →
     result ((setitem k v;; getitem k') s w) = result (getitem k' s w))
  ∧ result ((setitem k v;; delitem k;; getitem k) s w) = Raised (KeyError k)
  ∧ (items s !! k = None →
     result (delitem k s w) = Raised (KeyError k)
     ∧ items (self_after (delitem k s w)) = items s)
  ∧ world_after ((setitem k v;; delitem k;; getitem k) s w) = w.
Proof.
  unfold setitem, delitem, getitem, dict_getitem. run.
  rewrite !lookup_insert_eq. run. rewrite lookup_delete_eq.
  split; [reflexivity|]. split.
  { intros Hk. rewrite lookup_insert_ne by congruence.
    destruct (items s !! k'); reflexivity. }
  split; [reflexivity|]. split; [|reflexivity].
  intros Hn. rewrite Hn. split; reflexivity.
Qed.

(** ** A whole request *)


